(** * Gemma MCP client (src/apps/gemma_client.py): tool-call detection and
      the per-turn orchestration, as a shallow embedding. *)

From Stdlib Require Import String Ascii List ZArith Bool Lia.
Import ListNotations.
Open Scope string_scope.
Set Warnings "-register-all".

(** ** Characters and string helpers *)

Definition nl : ascii := "010"%char.
Definition tick : ascii := "096"%char.
Definition dq : ascii := "034"%char.

Definition chr (c : ascii) : string := String c EmptyString.

(** A JSON string literal: the text between double quotes. *)
Definition q (s : string) : string := chr dq ++ s ++ chr dq.

(** [strip_prefix p s] is [Some rest] when [s = p ++ rest]. *)
Fixpoint strip_prefix (p s : string) : option string :=
  match p, s with
  | EmptyString, _ => Some s
  | String a p', String b s' => if Ascii.eqb a b then strip_prefix p' s' else None
  | _, _ => None
  end.

(** ** TOOL_PATTERN and re.search *)

(** [TOOL_PATTERN = f"```json\n(.*?)\n``"]: the opening marker is three
    backticks, [json] and a newline; the closing marker, as written in the
    source, is a newline and two backticks. *)
Definition fence_open : string := "```json" ++ chr nl.
Definition fence_close : string := chr nl ++ "``".

(** The lazy group [(.*?)] followed by [\n``]: first try to match the tail
    [\n``] with an empty group, otherwise extend the group by one character;
    [.] does not match a newline (no [re.DOTALL]). *)
Fixpoint group_at (s : string) : option string :=
  match strip_prefix fence_close s with
  | Some _ => Some EmptyString
  | None =>
      match s with
      | EmptyString => None
      | String c s' =>
          if Ascii.eqb c nl then None
          else option_map (String c) (group_at s')
      end
  end.

(** The pattern anchored at the start of [s]; [Some g] gives group 1. *)
Definition match_at (s : string) : option string :=
  match strip_prefix fence_open s with
  | Some rest => group_at rest
  | None => None
  end.

(** [re.search(TOOL_PATTERN, s)]: the leftmost position where the pattern
    matches; the result is the text of group 1. *)
Fixpoint re_search (s : string) : option string :=
  match match_at s with
  | Some g => Some g
  | None =>
      match s with
      | EmptyString => None
      | String _ s' => re_search s'
      end
  end.

(** ** Python values and exceptions *)

(** Values produced by [json.loads] ([JNull] is Python's [None]; numbers
    are the integral ones). *)
Inductive json : Type :=
| JNull
| JBool (b : bool)
| JNum (n : Z)
| JStr (s : string)
| JArr (l : list json)
| JObj (kvs : list (string * json)).

(** A raised exception: its class name and [str(e)]. *)
Inductive py_exc : Type :=
| PyExc (cls : string) (msg : string).

Definition exc_str (e : py_exc) : string :=
  match e with PyExc _ m => m end.

Inductive pyres (A : Type) : Type :=
| Ok (a : A)
| Err (e : py_exc).
Arguments Ok {A} a.
Arguments Err {A} e.

(** Python truthiness of a JSON value ([if function_call_json:]). *)
Definition truthy (v : json) : bool :=
  match v with
  | JNull => false
  | JBool b => b
  | JNum n => negb (Z.eqb n 0)
  | JStr s => negb (String.eqb s EmptyString)
  | JArr l => match l with [] => false | _ => true end
  | JObj kvs => match kvs with [] => false | _ => true end
  end.

(** [v[k]] for a string key [k]: a dict built by [json.loads] keeps the
    last binding of a duplicated key. *)
Definition py_getitem (v : json) (k : string) : pyres json :=
  match v with
  | JObj kvs =>
      match find (fun kv => String.eqb (fst kv) k) (rev kvs) with
      | Some (_, x) => Ok x
      | None => Err (PyExc "KeyError" ("'" ++ k ++ "'"))
      end
  | JArr _ => Err (PyExc "TypeError" "list indices must be integers or slices, not str")
  | JStr _ => Err (PyExc "TypeError" "string indices must be integers, not 'str'")
  | JNum _ => Err (PyExc "TypeError" "'int' object is not subscriptable")
  | JBool _ => Err (PyExc "TypeError" "'bool' object is not subscriptable")
  | JNull => Err (PyExc "TypeError" "'NoneType' object is not subscriptable")
  end.

(** ** parse_response *)

(** [parse_response] over the JSON decoder [loads] ([json.loads]): the
    function falls off its end, returning [None], when nothing matches. *)
Definition parse_response (loads : string -> pyres json) (model_response : string)
  : pyres json :=
  match re_search model_response with
  | Some g => loads g
  | None => Ok JNull
  end.

(** ** The JSON decoder used on concrete inputs

    [json.loads] is Python's library decoder, not code of this repository;
    the results about [parse_response] and the turn hold for any decoder.
    Concrete runs use [json_loads] below: Python's grammar restricted to
    [null], [true], [false], integers, strings without escapes, arrays and
    objects, with the four JSON whitespace characters. A number with a
    fraction or exponent, or a string with a backslash, is outside the
    subset and reported as an error; no concrete input below has one. *)

Definition is_ws (c : ascii) : bool :=
  match c with
  | " "%char | "009"%char | "010"%char | "013"%char => true
  | _ => false
  end.

Fixpoint skip_ws (s : string) : string :=
  match s with
  | String c s' => if is_ws c then skip_ws s' else s
  | EmptyString => s
  end.

Definition is_digit (c : ascii) : bool :=
  (Nat.leb 48 (nat_of_ascii c) && Nat.leb (nat_of_ascii c) 57)%bool.

Definition digit_val (c : ascii) : Z := Z.of_nat (nat_of_ascii c - 48)%nat.

(** Further digits after the first one, accumulated into [acc]. *)
Fixpoint digits (acc : Z) (s : string) : Z * string :=
  match s with
  | String c s' => if is_digit c then digits (10 * acc + digit_val c)%Z s' else (acc, s)
  | EmptyString => (acc, s)
  end.

(** [0] or [1-9][0-9]*, refused when a fraction or exponent follows. *)
Definition pnat (s : string) : option (Z * string) :=
  match s with
  | String c s' =>
      if Ascii.eqb c "0"%char then Some (0%Z, s')
      else if is_digit c then Some (digits (digit_val c) s')
      else None
  | EmptyString => None
  end.

Definition pnumber (s : string) : option (json * string) :=
  let r := match s with
           | String "-"%char s' =>
               option_map (fun p => (Z.opp (fst p), snd p)) (pnat s')
           | _ => pnat s
           end in
  match r with
  | Some (n, rest) =>
      match rest with
      | String c _ =>
          if Ascii.eqb c "."%char || Ascii.eqb c "e"%char || Ascii.eqb c "E"%char
          then None else Some (JNum n, rest)
      | EmptyString => Some (JNum n, rest)
      end
  | None => None
  end.

(** The body of a string literal up to its closing quote; a backslash or a
    control character ends the subset. *)
Fixpoint pstring_body (s : string) : option (string * string) :=
  match s with
  | EmptyString => None
  | String c s' =>
      if Ascii.eqb c dq then Some (EmptyString, s')
      else if Ascii.eqb c "092"%char || Nat.ltb (nat_of_ascii c) 32 then None
      else option_map (fun p => (String c (fst p), snd p)) (pstring_body s')
  end.

(** Values, object members and array elements; [fuel] bounds the nesting
    and the number of members and elements. *)
Fixpoint pvalue (fuel : nat) (s : string) : option (json * string) :=
  match fuel with
  | O => None
  | S f =>
      match skip_ws s with
      | String c s' =>
          if Ascii.eqb c "{"%char then
            match skip_ws s' with
            | String "}"%char r => Some (JObj [], r)
            | s1 => option_map (fun p => (JObj (fst p), snd p)) (pmembers f s1)
            end
          else if Ascii.eqb c "["%char then
            match skip_ws s' with
            | String "]"%char r => Some (JArr [], r)
            | s1 => option_map (fun p => (JArr (fst p), snd p)) (pelems f s1)
            end
          else if Ascii.eqb c dq then
            option_map (fun p => (JStr (fst p), snd p)) (pstring_body s')
          else
            match strip_prefix "null" (String c s') with
            | Some r => Some (JNull, r)
            | None =>
            match strip_prefix "true" (String c s') with
            | Some r => Some (JBool true, r)
            | None =>
            match strip_prefix "false" (String c s') with
            | Some r => Some (JBool false, r)
            | None => pnumber (String c s')
            end end end
      | EmptyString => None
      end
  end
with pmembers (fuel : nat) (s : string) : option (list (string * json) * string) :=
  match fuel with
  | O => None
  | S f =>
      match skip_ws s with
      | String c s' =>
          if Ascii.eqb c dq then
            match pstring_body s' with
            | Some (k, r1) =>
                match skip_ws r1 with
                | String ":"%char r2 =>
                    match pvalue f r2 with
                    | Some (v, r3) =>
                        match skip_ws r3 with
                        | String ","%char r4 =>
                            option_map (fun p => ((k, v) :: fst p, snd p)) (pmembers f r4)
                        | String "}"%char r4 => Some ([(k, v)], r4)
                        | _ => None
                        end
                    | None => None
                    end
                | _ => None
                end
            | None => None
            end
          else None
      | EmptyString => None
      end
  end
with pelems (fuel : nat) (s : string) : option (list json * string) :=
  match fuel with
  | O => None
  | S f =>
      match pvalue f s with
      | Some (v, r1) =>
          match skip_ws r1 with
          | String ","%char r2 =>
              option_map (fun p => (v :: fst p, snd p)) (pelems f r2)
          | String "]"%char r2 => Some ([v], r2)
          | _ => None
          end
      | None => None
      end
  end.

(** [json.loads]: one value, surrounded by whitespace only. *)
Definition json_loads (s : string) : pyres json :=
  match pvalue (2 * String.length s + 2) s with
  | Some (v, rest) =>
      match skip_ws rest with
      | EmptyString => Ok v
      | _ => Err (PyExc "JSONDecodeError" "Extra data")
      end
  | None => Err (PyExc "JSONDecodeError" "Expecting value")
  end.

(** A JSON object literal [{"k1": v1, ...}] written with [q]. *)
Definition city_json (city : string) : string := "{" ++ q "city" ++ ": " ++ q city ++ "}".

Example json_loads_city :
  json_loads (city_json "Paris") = Ok (JObj [("city", JStr "Paris")]).
Proof. vm_compute. reflexivity. Qed.

Example json_loads_nested :
  json_loads (" [1, -20, {" ++ q "a" ++ ":[true,null]}, " ++ q EmptyString ++ "] ")
  = Ok (JArr [JNum 1; JNum (-20); JObj [("a", JArr [JBool true; JNull])]; JStr EmptyString]).
Proof. vm_compute. reflexivity. Qed.

Example json_loads_bad :
  json_loads "foo" = Err (PyExc "JSONDecodeError" "Expecting value").
Proof. vm_compute. reflexivity. Qed.

Example json_loads_empty_obj : json_loads "{}" = Ok (JObj []).
Proof. vm_compute. reflexivity. Qed.

Example json_loads_extra : json_loads "01" = Err (PyExc "JSONDecodeError" "Extra data").
Proof. vm_compute. reflexivity. Qed.

Example re_search_two_ticks :
  re_search ("text " ++ fence_open ++ city_json "Paris" ++ fence_close ++ " end")
  = Some (city_json "Paris").
Proof. vm_compute. reflexivity. Qed.

(** ** The session and the model as external oracles

    Every call to the MCP session or to the model is recorded in a trace
    together with its outcome. Each collaborator answers as a function of
    the trace so far, so a stateful session or model is covered. Logging is
    omitted: it neither fails nor changes the result. *)

Inductive event : Type :=
| EListTools (r : pyres unit)
| EListPrompts (r : pyres unit)
| EGetPrompt (name : string) (args : list (string * json)) (r : pyres string)
| ECallTool (name : string) (args : json) (r : pyres string)
| EModel (prompt : string) (r : pyres string).

Definition trace := list event.

(** [session.list_tools()], [session.list_prompts()],
    [session.get_prompt(name, arguments).messages[0].content.text],
    [session.call_tool(name, args).content[0].text] and [model_call]. *)
Record env : Type := {
  env_list_tools : trace -> pyres unit;
  env_list_prompts : trace -> pyres unit;
  env_get_prompt : trace -> string -> list (string * json) -> pyres string;
  env_call_tool : trace -> string -> json -> pyres string;
  env_model : trace -> string -> pyres string
}.

(** A state (the trace) and exception monad. *)
Definition M (A : Type) : Type := trace -> pyres A * trace.

Definition ret {A} (a : A) : M A := fun h => (Ok a, h).

Definition bind {A B} (m : M A) (k : A -> M B) : M B :=
  fun h => match m h with
           | (Ok a, h') => k a h'
           | (Err e, h') => (Err e, h')
           end.

Definition lift {A} (r : pyres A) : M A := fun h => (r, h).

Notation "x <- m ;; k" := (bind m (fun x => k))
  (at level 61, m at next level, right associativity).

(** "\n".join(parts) *)
Definition py_join (sep : string) (parts : list string) : string :=
  match parts with
  | [] => EmptyString
  | p :: ps => fold_left (fun acc x => acc ++ sep ++ x) ps p
  end.

Section Turn.

Variable E : env.
Variable loads : string -> pyres json.

Definition record {A} (mk : pyres A -> event) (r : trace -> pyres A) : M A :=
  fun h => let x := r h in (x, app h [mk x]).

Definition list_tools : M unit := record EListTools (env_list_tools E).
Definition list_prompts : M unit := record EListPrompts (env_list_prompts E).
Definition get_prompt (name : string) (args : list (string * json)) : M string :=
  record (EGetPrompt name args) (fun h => env_get_prompt E h name args).
Definition call_tool (name : string) (args : json) : M string :=
  record (ECallTool name args) (fun h => env_call_tool E h name args).
Definition model_call (model_prompt : string) : M string :=
  record (EModel model_prompt) (fun h => env_model E h model_prompt).

(** [combined_prompt = f"{system_prompt}\n{user_prompt}"] *)
Definition combined_prompt (system_prompt user_prompt : string) : string :=
  system_prompt ++ chr nl ++ user_prompt.

Definition augmented_model_call (system_prompt user_prompt : string) : M string :=
  model_call (combined_prompt system_prompt user_prompt).

(** The two branches of [process_user_prompt]; the result is [final_text]. *)
Definition tool_branch (function_call_json : json) (model_response : string)
  : M (list string) :=
  if truthy function_call_json then
    result <- call_tool "weather_tool" function_call_json ;;
    city <- lift (py_getitem function_call_json "city") ;;
    weather_prompt_text <- get_prompt "weather_response_prompt"
                             [("city", city); ("weather", JStr result)] ;;
    model_response2 <- model_call weather_prompt_text ;;
    ret [model_response2]
  else ret [model_response].

Definition process_final_text (user_prompt : string) : M (list string) :=
  _ <- list_tools ;;
  _ <- list_prompts ;;
  system_prompt <- get_prompt "weather_prompt" [] ;;
  model_response <- augmented_model_call system_prompt user_prompt ;;
  function_call_json <- lift (parse_response loads model_response) ;;
  tool_branch function_call_json model_response.

(** [MCPClient.process_user_prompt]: returns "\n".join(final_text). *)
Definition process_user_prompt (user_prompt : string) : M string :=
  final_text <- process_final_text user_prompt ;;
  ret (py_join (chr nl) final_text).

(** ** chat_loop *)

(** [str.strip()] on ASCII: Python's whitespace is 9-13, 28-31 and 32. *)
Definition py_space (c : ascii) : bool :=
  let n := nat_of_ascii c in
  (Nat.leb 9 n && Nat.leb n 13) || (Nat.leb 28 n && Nat.leb n 32).

Fixpoint lstrip (s : string) : string :=
  match s with
  | String c s' => if py_space c then lstrip s' else s
  | EmptyString => s
  end.

Fixpoint rev_string (s : string) : string :=
  match s with
  | String c s' => rev_string s' ++ chr c
  | EmptyString => EmptyString
  end.

Definition strip (s : string) : string := rev_string (lstrip (rev_string (lstrip s))).

(** [str.lower()] on ASCII. *)
Definition lower_char (c : ascii) : ascii :=
  let n := nat_of_ascii c in
  if Nat.leb 65 n && Nat.leb n 90 then ascii_of_nat (n + 32) else c.

Fixpoint lower (s : string) : string :=
  match s with
  | String c s' => String (lower_char c) (lower s')
  | EmptyString => EmptyString
  end.

Definition is_quit (line : string) : bool := String.eqb (lower (strip line)) "q".

Inductive loop_end : Type := Quit | OutOfFuel.

(** [print("\n" + response)], or the handler's [print(f"\nError: {str(e)}")]. *)
Definition show_result (r : pyres string) : string :=
  match r with
  | Ok response => chr nl ++ response
  | Err e => chr nl ++ "Error: " ++ exc_str e
  end.

(** The [while True] loop. [lines] are the lines still to be typed; once
    they are exhausted (input read from a pipe or a file) [input()] raises
    [EOFError("EOF when reading a line")] at every call, and the handler
    prints it. [fuel] bounds the number of iterations. The
    result is the printed texts, how the loop ended, and the trace. *)
Fixpoint chat_loop_iter (fuel : nat) (lines : list string) (h : trace)
  : list string * loop_end * trace :=
  match fuel with
  | O => ([], OutOfFuel, h)
  | S f =>
      match lines with
      | [] =>
          let '(out, e, h') := chat_loop_iter f [] h in
          ((chr nl ++ "Error: EOF when reading a line") :: out, e, h')
      | line :: rest =>
          let user_prompt := strip line in
          if String.eqb (lower user_prompt) "q" then ([], Quit, h)
          else
            let '(r, h1) := process_user_prompt user_prompt h in
            let '(out, e, h') := chat_loop_iter f rest h1 in
            (show_result r :: out, e, h')
      end
  end.

Definition chat_loop (fuel : nat) (lines : list string) (h : trace)
  : list string * loop_end * trace :=
  let '(out, e, h') := chat_loop_iter fuel lines h in
  ((chr nl ++ "MCP Client Started!") :: "Type your queries or 'quit' to exit." :: out, e, h').

End Turn.

(** ** Runs of a turn *)

(** The first four calls of a turn succeed: both listings, the system
    prompt [sp], and the model's first response [r] to the combined prompt. *)
Definition first_trace (h : trace) (sp u r : string) : trace :=
  app h [EListTools (Ok tt); EListPrompts (Ok tt);
        EGetPrompt "weather_prompt" [] (Ok sp);
        EModel (combined_prompt sp u) (Ok r)].

Definition reaches_first (E : env) (h : trace) (u sp r : string) : Prop :=
  env_list_tools E h = Ok tt /\
  env_list_prompts E (app h [EListTools (Ok tt)]) = Ok tt /\
  env_get_prompt E (app h [EListTools (Ok tt); EListPrompts (Ok tt)]) "weather_prompt" [] = Ok sp /\
  env_model E (app h [EListTools (Ok tt); EListPrompts (Ok tt);
                     EGetPrompt "weather_prompt" [] (Ok sp)]) (combined_prompt sp u) = Ok r.

Definition is_model_event (ev : event) : bool :=
  match ev with EModel _ _ => true | _ => false end.

Definition is_tool_event (ev : event) : bool :=
  match ev with ECallTool _ _ _ => true | _ => false end.

Definition count (f : event -> bool) (tr : trace) : nat := length (filter f tr).

(** A session and a model answering in a fixed way: the model gives
    [first] on its first call and [second] afterwards; the tool, when
    [tool_ok], returns "Sunny, 20C" and otherwise raises. *)
Definition scenario_env (first second : string) (tool_ok : bool) : env := {|
  env_list_tools := fun _ => Ok tt;
  env_list_prompts := fun _ => Ok tt;
  env_get_prompt := fun _ name _ =>
    if String.eqb name "weather_prompt" then Ok "You can call weather_tool." else Ok "T";
  env_call_tool := fun _ _ _ =>
    if tool_ok then Ok "Sunny, 20C" else Err (PyExc "McpError" "tool failed");
  env_model := fun h _ => if existsb is_model_event h then Ok second else Ok first
|}.

(** A model response holding a fenced block around [body]: three backticks
    on both sides. *)
Definition fenced (body : string) : string :=
  "Let me check." ++ chr nl ++ fence_open ++ body ++ chr nl ++ "```".

(** ** Lemmas on the pattern *)

Lemma strip_prefix_app (p s : string) : strip_prefix p (p ++ s) = Some s.
Proof.
  induction p as [|a p IH]; simpl; [reflexivity|].
  rewrite Ascii.eqb_refl. exact IH.
Qed.

Fixpoint has_char (c : ascii) (s : string) : bool :=
  match s with
  | EmptyString => false
  | String d s' => Ascii.eqb c d || has_char c s'
  end.

Lemma strip_prefix_cons (a b : ascii) (p s : string) :
  strip_prefix (String a p) (String b s) = if Ascii.eqb a b then strip_prefix p s else None.
Proof. reflexivity. Qed.

Lemma group_at_cons (c : ascii) (s : string) :
  group_at (String c s) =
  match strip_prefix fence_close (String c s) with
  | Some _ => Some EmptyString
  | None => if Ascii.eqb c nl then None else option_map (String c) (group_at s)
  end.
Proof. reflexivity. Qed.

Lemma fence_close_eq : fence_close = String nl (String tick (String tick EmptyString)).
Proof. reflexivity. Qed.

Lemma fence_open_eq : exists rest, fence_open = String tick rest.
Proof. eexists. reflexivity. Qed.

Lemma group_at_line (l post : string) :
  has_char nl l = false -> group_at (l ++ fence_close ++ post) = Some l.
Proof.
  induction l as [|c l IH]; intro H.
  - cbv [fence_close chr]. simpl. reflexivity.
  - cbn [has_char] in H. apply orb_false_iff in H as [Hc Hl].
    change ((String c l ++ fence_close ++ post)) with (String c (l ++ fence_close ++ post)).
    rewrite group_at_cons, fence_close_eq, strip_prefix_cons, Hc.
    rewrite Ascii.eqb_sym, Hc, <- fence_close_eq, (IH Hl). reflexivity.
Qed.

Lemma re_search_skip (pre rest : string) :
  has_char tick pre = false -> re_search (pre ++ rest) = re_search rest.
Proof.
  induction pre as [|c pre IH]; intro H; [reflexivity|].
  cbn [has_char] in H. apply orb_false_iff in H as [Hc Hp].
  change (String c pre ++ rest) with (String c (pre ++ rest)).
  assert (Hm : match_at (String c (pre ++ rest)) = None).
  { unfold match_at. destruct fence_open_eq as [fo Hfo]. rewrite Hfo, strip_prefix_cons, Hc.
    reflexivity. }
  change (re_search (String c (pre ++ rest))) with
    (match match_at (String c (pre ++ rest)) with
     | Some g => Some g
     | None => re_search (pre ++ rest)
     end).
  rewrite Hm. apply IH, Hp.
Qed.


Lemma re_search_eq (s : string) :
  re_search s = match match_at s with
                | Some g => Some g
                | None => match s with EmptyString => None | String _ s' => re_search s' end
                end.
Proof. destruct s; reflexivity. Qed.

Lemma re_search_at_fence (l post : string) :
  has_char nl l = false -> re_search (fence_open ++ l ++ fence_close ++ post) = Some l.
Proof.
  intro Hl. rewrite re_search_eq. unfold match_at.
  rewrite strip_prefix_app, (group_at_line l post Hl). reflexivity.
Qed.

(** ** C1: outputs without a well-formed fenced block *)

(** C1 (code_bug). An output whose JSON block is closed by only two
    backticks has no well-formed fenced block (no three backticks after the
    opening marker), yet [parse_response] finds it and returns the decoded
    object instead of [None]: [TOOL_PATTERN] closes with [\n``]. *)
Theorem C1_two_tick_fence_parsed :
  let inp := fence_open ++ city_json "Paris" ++ fence_close in
  String.index 1 "```" inp = None /\
  parse_response json_loads inp = Ok (JObj [("city", JStr "Paris")]).
Proof. vm_compute. split; reflexivity. Qed.

(** ** C2: the decoded arguments *)







(** ** The turn after the model's first response *)

Lemma app_snoc {A} (h xs : list A) (x : A) : app (app h xs) [x] = app h (app xs [x]).
Proof. rewrite <- app_assoc. reflexivity. Qed.

Lemma process_after_first E loads h u sp r :
  reaches_first E h u sp r ->
  process_final_text E loads u h =
    match parse_response loads r with
    | Ok v => tool_branch E v r (first_trace h sp u r)
    | Err e => (Err e, first_trace h sp u r)
    end.
Proof.
  intros (H1 & H2 & H3 & H4).
  unfold process_final_text, bind at 1, list_tools, record. rewrite H1.
  unfold bind at 1, list_prompts, record. rewrite H2.
  unfold bind at 1, get_prompt, record. rewrite app_snoc. simpl app. rewrite H3.
  unfold bind at 1, augmented_model_call, model_call, record. rewrite app_snoc. simpl app.
  rewrite H4.
  unfold bind, lift. rewrite app_snoc. simpl app. fold (first_trace h sp u r).
  destruct (parse_response loads r); reflexivity.
Qed.

Lemma direct_branch_run E loads h u sp r v :
  reaches_first E h u sp r -> parse_response loads r = Ok v -> truthy v = false ->
  process_user_prompt E loads u h = (Ok r, first_trace h sp u r).
Proof.
  intros Hr Hp Ht. unfold process_user_prompt, bind at 1.
  rewrite (process_after_first E loads h u sp r Hr), Hp.
  unfold tool_branch. rewrite Ht. reflexivity.
Qed.

(** ** C3: a found block that does not decode *)

(** C3. When the pattern is found in the model's first response but its
    group does not decode, the decoder's exception ends the turn: the turn
    returns that exception, no answer, and makes no call after the first
    model call. *)
Theorem C3_decode_error_propagates E loads h u sp r g e :
  reaches_first E h u sp r -> re_search r = Some g -> loads g = Err e ->
  process_user_prompt E loads u h = (Err e, first_trace h sp u r).
Proof.
  intros Hr Hs Hl. unfold process_user_prompt, bind at 1.
  rewrite (process_after_first E loads h u sp r Hr).
  unfold parse_response. rewrite Hs, Hl. reflexivity.
Qed.

Lemma C3_decode_error_propagates_witness :
  let E := scenario_env (fenced "foo") "unused" true in
  reaches_first E [] "weather in Paris" "You can call weather_tool." (fenced "foo") /\
  re_search (fenced "foo") = Some "foo" /\
  json_loads "foo" = Err (PyExc "JSONDecodeError" "Expecting value") /\
  process_user_prompt E json_loads "weather in Paris" []
  = (Err (PyExc "JSONDecodeError" "Expecting value"),
     first_trace [] "You can call weather_tool." "weather in Paris" (fenced "foo")).
Proof.
  intro E.
  assert (Hr : reaches_first E [] "weather in Paris" "You can call weather_tool." (fenced "foo"))
    by (repeat split; vm_compute; reflexivity).
  split; [exact Hr|]. split; [vm_compute; reflexivity|].
  split; [vm_compute; reflexivity|].
  apply (C3_decode_error_propagates E json_loads [] "weather in Paris"
           "You can call weather_tool." (fenced "foo") "foo"); [exact Hr| |];
    vm_compute; reflexivity.
Defined.

(** ** C4: the tool branch *)

(** C4 (counterexample). The fenced block [{}] decodes to an object, an
    invocation with no arguments, but the turn never calls the tool: [{}]
    is falsy, and the raw first response is the answer after one model
    call. *)
Lemma C4_empty_arguments_not_invoked :
  let E := scenario_env (fenced "{}") "It is sunny." true in
  parse_response json_loads (fenced "{}") = Ok (JObj []) /\
  process_user_prompt E json_loads "weather in Paris" []
  = (Ok (fenced "{}"),
     first_trace [] "You can call weather_tool." "weather in Paris" (fenced "{}")).
Proof. vm_compute. split; reflexivity. Qed.

(** C4 (amended). When the first response's extraction [v] is truthy (a
    non-empty object, say) and the turn completes with answer [ans], the
    calls after the first model call are exactly: [call_tool("weather_tool",
    v)] giving text [wr], [get_prompt("weather_response_prompt", {city:
    v["city"], weather: wr})] giving text [t], and the model on [t], whose
    response is [ans] verbatim; the model is called twice in all. *)
Theorem C4_tool_branch_trace E loads h u sp r v ans tr :
  reaches_first E h u sp r -> parse_response loads r = Ok v -> truthy v = true ->
  process_user_prompt E loads u h = (Ok ans, tr) ->
  exists wr city t,
    py_getitem v "city" = Ok city /\
    tr = app (first_trace h sp u r)
           [ECallTool "weather_tool" v (Ok wr);
            EGetPrompt "weather_response_prompt" [("city", city); ("weather", JStr wr)] (Ok t);
            EModel t (Ok ans)].
Proof.
  intros Hr Hp Ht Hrun.
  unfold process_user_prompt, bind at 1 in Hrun.
  rewrite (process_after_first E loads h u sp r Hr), Hp in Hrun.
  unfold tool_branch in Hrun. rewrite Ht in Hrun.
  unfold bind, call_tool, get_prompt, model_call, record, lift, ret in Hrun. cbn zeta in Hrun.
  destruct (env_call_tool E _ _ _) as [wr|e]; [|discriminate].
  destruct (py_getitem v "city") as [city|e] eqn:Hc; [|discriminate].
  destruct (env_get_prompt E _ _ _) as [t|e]; [|discriminate].
  destruct (env_model E _ _) as [a|e]; [|discriminate].
  injection Hrun as <- <-.
  exists wr, city, t. split; [reflexivity|].
  rewrite <- !app_assoc. reflexivity.
Qed.

(** Scenario B of the design: "weather in Paris". *)
Definition scenario_b : env :=
  scenario_env (fenced (city_json "Paris")) "It is sunny in Paris." true.

Lemma C4_tool_branch_trace_witness :
  reaches_first scenario_b [] "weather in Paris" "You can call weather_tool."
    (fenced (city_json "Paris")) /\
  parse_response json_loads (fenced (city_json "Paris")) = Ok (JObj [("city", JStr "Paris")]) /\
  fst (process_user_prompt scenario_b json_loads "weather in Paris" [])
  = Ok "It is sunny in Paris." /\
  exists wr city t,
    py_getitem (JObj [("city", JStr "Paris")]) "city" = Ok city /\
    snd (process_user_prompt scenario_b json_loads "weather in Paris" [])
    = app (first_trace [] "You can call weather_tool." "weather in Paris"
             (fenced (city_json "Paris")))
        [ECallTool "weather_tool" (JObj [("city", JStr "Paris")]) (Ok wr);
         EGetPrompt "weather_response_prompt" [("city", city); ("weather", JStr wr)] (Ok t);
         EModel t (Ok "It is sunny in Paris.")].
Proof.
  assert (Hr : reaches_first scenario_b [] "weather in Paris" "You can call weather_tool."
                 (fenced (city_json "Paris")))
    by (repeat split; vm_compute; reflexivity).
  split; [exact Hr|]. split; [vm_compute; reflexivity|].
  split; [vm_compute; reflexivity|].
  apply (C4_tool_branch_trace scenario_b json_loads [] "weather in Paris"
           "You can call weather_tool." (fenced (city_json "Paris"))
           (JObj [("city", JStr "Paris")]) "It is sunny in Paris.");
    [exact Hr | vm_compute; reflexivity | reflexivity | vm_compute; reflexivity].
Defined.

(** ** C5: the direct branch *)

(** C5. When extraction gives [None], the turn's answer is the model's
    first response verbatim, and the trace ends with that single model
    call: no tool call and no further session call. *)
Theorem C5_direct_branch_answer E loads h u sp r :
  reaches_first E h u sp r -> parse_response loads r = Ok JNull ->
  process_user_prompt E loads u h = (Ok r, first_trace h sp u r).
Proof.
  intros Hr Hp. exact (direct_branch_run E loads h u sp r JNull Hr Hp eq_refl).
Qed.

(** Scenario A of the design: "What is 2+2?" answered by "4". *)
Lemma C5_direct_branch_answer_witness :
  let E := scenario_env "4" "unused" true in
  reaches_first E [] "What is 2+2?" "You can call weather_tool." "4" /\
  parse_response json_loads "4" = Ok JNull /\
  process_user_prompt E json_loads "What is 2+2?" []
  = (Ok "4", first_trace [] "You can call weather_tool." "What is 2+2?" "4").
Proof.
  intro E.
  assert (Hr : reaches_first E [] "What is 2+2?" "You can call weather_tool." "4")
    by (repeat split; vm_compute; reflexivity).
  split; [exact Hr|]. split; [vm_compute; reflexivity|].
  apply (C5_direct_branch_answer E json_loads [] "What is 2+2?" "You can call weather_tool." "4");
    [exact Hr | vm_compute; reflexivity].
Defined.

(** ** C10: falsy extractions take the direct branch *)

(** C10. When the pattern is found and its group decodes to a falsy value
    ([{}], [[]], [null], [false], [0], [""]), the turn returns the raw first
    response, fence included, and calls neither the tool nor the follow-up
    prompt. *)
Theorem C10_falsy_direct_branch E loads h u sp r g v :
  reaches_first E h u sp r -> re_search r = Some g -> loads g = Ok v -> truthy v = false ->
  process_user_prompt E loads u h = (Ok r, first_trace h sp u r).
Proof.
  intros Hr Hs Hl Ht. apply (direct_branch_run E loads h u sp r v Hr); [|exact Ht].
  unfold parse_response. rewrite Hs. exact Hl.
Qed.

Lemma C10_falsy_direct_branch_witness :
  let E := scenario_env (fenced "{}") "It is sunny." true in
  reaches_first E [] "weather in Paris" "You can call weather_tool." (fenced "{}") /\
  re_search (fenced "{}") = Some "{}" /\ json_loads "{}" = Ok (JObj []) /\
  truthy (JObj []) = false /\
  process_user_prompt E json_loads "weather in Paris" []
  = (Ok (fenced "{}"), first_trace [] "You can call weather_tool." "weather in Paris" (fenced "{}")).
Proof.
  intro E.
  assert (Hr : reaches_first E [] "weather in Paris" "You can call weather_tool." (fenced "{}"))
    by (repeat split; vm_compute; reflexivity).
  split; [exact Hr|]. split; [vm_compute; reflexivity|].
  split; [vm_compute; reflexivity|]. split; [reflexivity|].
  apply (C10_falsy_direct_branch E json_loads [] "weather in Paris" "You can call weather_tool."
           (fenced "{}") "{}" (JObj [])); [exact Hr | vm_compute; reflexivity
                                          | vm_compute; reflexivity | reflexivity].
Defined.

(** ** C6: one answer, at most one tool call *)

(** C6. A turn that completes returns the single element of its
    [final_text] list, calls the tool at most once, and calls the model once
    or twice. *)
Theorem C6_one_answer_at_most_one_tool_call E loads u h ans tr :
  process_user_prompt E loads u h = (Ok ans, tr) ->
  fst (process_final_text E loads u h) = Ok [ans] /\
  exists new, tr = app h new /\ count is_tool_event new <= 1 /\
    1 <= count is_model_event new <= 2.
Proof.
  intro Hrun. unfold process_user_prompt, bind at 1 in Hrun.
  destruct (process_final_text E loads u h) as [[ft|e] tr0] eqn:Hft; [|discriminate].
  unfold ret in Hrun. injection Hrun as <- <-.
  revert Hft.
  unfold process_final_text, tool_branch, bind, list_tools, list_prompts, get_prompt,
    augmented_model_call, model_call, call_tool, record, lift, ret.
  cbn zeta.
  repeat match goal with
         | |- context [match ?x with Ok _ => _ | Err _ => _ end] => destruct x
         | |- context [if ?b then _ else _] => destruct b
         end;
    intro Hft; try discriminate; injection Hft as <- <-; split; try reflexivity;
    eexists; (split; [rewrite <- !app_assoc; reflexivity|]); cbn; lia.
Qed.

Lemma C6_one_answer_at_most_one_tool_call_witness :
  fst (process_final_text scenario_b json_loads "weather in Paris" [])
  = Ok ["It is sunny in Paris."] /\
  exists new,
    snd (process_user_prompt scenario_b json_loads "weather in Paris" []) = app [] new /\
    count is_tool_event new <= 1 /\ 1 <= count is_model_event new <= 2.
Proof.
  apply (C6_one_answer_at_most_one_tool_call scenario_b json_loads "weather in Paris" []
           "It is sunny in Paris."
           (snd (process_user_prompt scenario_b json_loads "weather in Paris" []))).
  vm_compute. reflexivity.
Defined.

(** ** C8: the combined prompt *)

Lemma substring_app_l (s t : string) : substring 0 (String.length s) (s ++ t) = s.
Proof. induction s as [|c s IH]; simpl; [destruct t; reflexivity|]. rewrite IH. reflexivity. Qed.

Lemma substring_app_r (s t : string) (n m : nat) :
  substring (String.length s + n) m (s ++ t) = substring n m t.
Proof. induction s as [|c s IH]; simpl; [reflexivity|]. exact IH. Qed.

Lemma substring_all (u : string) : substring 0 (String.length u) u = u.
Proof. induction u as [|c u IH]; simpl; [reflexivity|]. rewrite IH. reflexivity. Qed.

Lemma get_app_r (s t : string) (n : nat) : get (String.length s + n) (s ++ t) = get n t.
Proof. induction s as [|c s IH]; simpl; [reflexivity|]. exact IH. Qed.

Lemma length_app (s t : string) :
  String.length (s ++ t) = String.length s + String.length t.
Proof. induction s as [|c s IH]; simpl; [reflexivity|]. rewrite IH. reflexivity. Qed.

(** C8. The prompt handed to the model by [augmented_model_call] is the
    system prompt, one newline, then the user prompt, nothing truncated,
    replaced or added; the call records that prompt and its response. *)
Theorem C8_combined_prompt E sp u h :
  exists p,
    augmented_model_call E sp u h = (env_model E h p, app h [EModel p (env_model E h p)]) /\
    substring 0 (String.length sp) p = sp /\
    get (String.length sp) p = Some nl /\
    substring (S (String.length sp)) (String.length u) p = u /\
    String.length p = String.length sp + S (String.length u).
Proof.
  exists (combined_prompt sp u). split; [reflexivity|].
  unfold combined_prompt. split; [apply substring_app_l|].
  split; [rewrite <- (Nat.add_0_r (String.length sp)), get_app_r; reflexivity|].
  split.
  - rewrite <- Nat.add_1_r, substring_app_r. apply substring_all.
  - rewrite length_app. reflexivity.
Qed.

(** ** C7 and C9: the chat loop *)

(** C7. When a turn raises any exception [e], the loop prints
    ["\nError: " ++ str(e)] in place of an answer and goes on reading the
    next line with the session as the failed turn left it. *)
Theorem C7_failed_turn_continues E loads fuel line rest h e h1 :
  is_quit line = false -> process_user_prompt E loads (strip line) h = (Err e, h1) ->
  chat_loop_iter E loads (S fuel) (line :: rest) h =
  let '(out, en, h') := chat_loop_iter E loads fuel rest h1 in
  ((chr nl ++ "Error: " ++ exc_str e) :: out, en, h').
Proof.
  intros Hq Hp. cbn [chat_loop_iter]. unfold is_quit in Hq. rewrite Hq, Hp. reflexivity.
Qed.

(** A failing tool call (design scenario 7), followed by "q". *)
Lemma C7_failed_turn_continues_witness :
  let E := scenario_env (fenced (city_json "Paris")) "unused" false in
  is_quit "weather in Paris" = false /\
  process_user_prompt E json_loads (strip "weather in Paris") []
  = (Err (PyExc "McpError" "tool failed"),
     snd (process_user_prompt E json_loads "weather in Paris" [])) /\
  chat_loop_iter E json_loads 2 ["weather in Paris"; "q"] []
  = ([chr nl ++ "Error: tool failed"], Quit,
     snd (process_user_prompt E json_loads "weather in Paris" [])).
Proof.
  intro E. split; [vm_compute; reflexivity|].
  assert (Hp : process_user_prompt E json_loads (strip "weather in Paris") []
               = (Err (PyExc "McpError" "tool failed"),
                  snd (process_user_prompt E json_loads "weather in Paris" [])))
    by (vm_compute; reflexivity).
  split; [exact Hp|].
  rewrite (C7_failed_turn_continues E json_loads 1 "weather in Paris" ["q"] []
             (PyExc "McpError" "tool failed") _ eq_refl Hp).
  vm_compute. reflexivity.
Defined.

(** C9. Each iteration reads one line: a line that is ["q"] after
    [strip()] and [lower()] ends the loop at once, with nothing printed and
    no call made; every other line, stripped, is passed to
    [process_user_prompt] and its result (or its error) is printed before
    the next line is read. *)
Theorem C9_quit_or_forward E loads fuel line rest h :
  is_quit "q" = true /\
  (is_quit line = true -> chat_loop_iter E loads (S fuel) (line :: rest) h = ([], Quit, h)) /\
  (is_quit line = false ->
   chat_loop_iter E loads (S fuel) (line :: rest) h =
   let '(r, h1) := process_user_prompt E loads (strip line) h in
   let '(out, en, h') := chat_loop_iter E loads fuel rest h1 in
   (show_result r :: out, en, h')).
Proof.
  split; [reflexivity|].
  unfold is_quit. split; intro Hq; cbn [chat_loop_iter]; rewrite Hq; reflexivity.
Qed.

(** ** Further properties of the code *)

Lemma strip_prefix_some (p s r : string) : strip_prefix p s = Some r -> s = p ++ r.
Proof.
  revert s. induction p as [|a p IH]; intros s H.
  - injection H as <-. reflexivity.
  - destruct s as [|b s]; [discriminate|].
    rewrite strip_prefix_cons in H.
    destruct (Ascii.eqb a b) eqn:Hab; [|discriminate].
    apply Ascii.eqb_eq in Hab as <-. simpl. f_equal. apply IH, H.
Qed.

Lemma group_at_some (s g : string) :
  group_at s = Some g ->
  has_char nl g = false /\ exists post, s = g ++ fence_close ++ post.
Proof.
  revert g. induction s as [|c s IH]; intros g H.
  - discriminate.
  - rewrite group_at_cons in H.
    destruct (strip_prefix fence_close (String c s)) as [post|] eqn:Hp.
    + injection H as <-. split; [reflexivity|].
      exists post. exact (strip_prefix_some _ _ _ Hp).
    + destruct (Ascii.eqb c nl) eqn:Hc; [discriminate|].
      destruct (group_at s) as [g'|] eqn:Hg; [|discriminate].
      injection H as <-. destruct (IH g' eq_refl) as [Hn [post Hs]].
      split.
      * cbn [has_char]. rewrite Ascii.eqb_sym, Hc. exact Hn.
      * exists post. rewrite Hs. reflexivity.
Qed.

(** X1. A match of [TOOL_PATTERN] found by [re.search] has a group that is
    a single line, and the output is [pre ++ "```json\n" ++ g ++ "\n``" ++
    post]: the group is exactly the text between the markers. *)
Theorem re_search_sound (s g : string) :
  re_search s = Some g ->
  has_char nl g = false /\
  exists pre post, s = pre ++ fence_open ++ g ++ fence_close ++ post.
Proof.
  revert g. induction s as [|c s IH]; intros g H.
  - discriminate.
  - rewrite re_search_eq in H.
    destruct (match_at (String c s)) as [g'|] eqn:Hm.
    + injection H as <-. unfold match_at in Hm.
      destruct (strip_prefix fence_open (String c s)) as [rest|] eqn:Hp; [|discriminate].
      apply strip_prefix_some in Hp.
      destruct (group_at_some rest g' Hm) as [Hn [post Hr]].
      split; [exact Hn|]. exists EmptyString, post. rewrite Hp, Hr. reflexivity.
    + destruct (IH g H) as [Hn [pre [post Hs]]].
      split; [exact Hn|]. exists (String c pre), post. rewrite Hs. reflexivity.
Qed.

Lemma re_search_sound_witness :
  re_search (fenced (city_json "Paris")) = Some (city_json "Paris") /\
  has_char nl (city_json "Paris") = false /\
  exists pre post,
    fenced (city_json "Paris") = pre ++ fence_open ++ city_json "Paris" ++ fence_close ++ post.
Proof.
  split; [vm_compute; reflexivity|].
  apply re_search_sound. vm_compute. reflexivity.
Defined.

(** X2. If the output holds ["```json\n"], one line, and ["\n``"] anywhere,
    [re.search] finds a match, so [parse_response] decodes some group
    rather than returning [None] without decoding. *)
Theorem re_search_complete (pre l post : string) :
  has_char nl l = false ->
  exists g, re_search (pre ++ fence_open ++ l ++ fence_close ++ post) = Some g.
Proof.
  intro Hl. induction pre as [|c pre IH].
  - exists l. apply re_search_at_fence, Hl.
  - change (String c pre ++ ?x) with (String c (pre ++ x)). rewrite re_search_eq.
    destruct (match_at _) as [g|]; [exists g; reflexivity|exact IH].
Qed.

Lemma re_search_complete_witness :
  has_char nl (city_json "Paris") = false /\
  exists g, re_search ("Sure: " ++ fence_open ++ city_json "Paris" ++ fence_close ++ "`")
            = Some g.
Proof.
  split; [vm_compute; reflexivity|].
  apply (re_search_complete "Sure: " (city_json "Paris") "`"). vm_compute. reflexivity.
Defined.

Lemma append_empty (s : string) : s ++ EmptyString = s.
Proof. induction s as [|c s IH]; simpl; [reflexivity | rewrite IH; reflexivity]. Qed.

(** X3. A model response with no backtick is never decoded: whatever the
    decoder, [parse_response] returns [None]. *)
Theorem parse_response_no_backtick (loads : string -> pyres json) (s : string) :
  has_char tick s = false -> parse_response loads s = Ok JNull.
Proof.
  intro H. unfold parse_response.
  rewrite <- (append_empty s).
  rewrite re_search_skip by exact H. reflexivity.
Qed.

Lemma parse_response_no_backtick_witness :
  has_char tick ("The answer is 4." ++ chr nl ++ "No tool needed.") = false /\
  parse_response json_loads ("The answer is 4." ++ chr nl ++ "No tool needed.") = Ok JNull.
Proof.
  split; [vm_compute; reflexivity|].
  apply parse_response_no_backtick. vm_compute. reflexivity.
Defined.

(** *** The calls of a turn *)

Definition is_list_tools_event (ev : event) : bool :=
  match ev with EListTools _ => true | _ => false end.
Definition is_list_prompts_event (ev : event) : bool :=
  match ev with EListPrompts _ => true | _ => false end.
Definition is_system_prompt_event (ev : event) : bool :=
  match ev with EGetPrompt name [] _ => String.eqb name "weather_prompt" | _ => false end.
Definition is_response_prompt_event (ev : event) : bool :=
  match ev with EGetPrompt name _ _ => String.eqb name "weather_response_prompt" | _ => false end.
Definition is_weather_tool_event (ev : event) : bool :=
  match ev with ECallTool name _ _ => String.eqb name "weather_tool" | _ => false end.

(** The calls of a turn in the order of the source. *)
Definition turn_order : list (event -> bool) :=
  [is_list_tools_event; is_list_prompts_event; is_system_prompt_event; is_model_event;
   is_weather_tool_event; is_response_prompt_event; is_model_event].

(** [follows ps evs]: the events [evs] match a prefix of [ps], in order. *)
Fixpoint follows (ps : list (event -> bool)) (evs : list event) : bool :=
  match evs, ps with
  | [], _ => true
  | ev :: evs', p :: ps' => p ev && follows ps' evs'
  | _ :: _, [] => false
  end.

Definition event_err (ev : event) : option py_exc :=
  match ev with
  | EListTools (Err e) | EListPrompts (Err e) | EGetPrompt _ _ (Err e)
  | ECallTool _ _ (Err e) | EModel _ (Err e) => Some e
  | _ => None
  end.

Definition last_err (evs : list event) : option py_exc :=
  match rev evs with ev :: _ => event_err ev | [] => None end.

Ltac turn_cases Hrun :=
  revert Hrun;
  unfold process_user_prompt, process_final_text, tool_branch, bind, list_tools,
    list_prompts, get_prompt, augmented_model_call, model_call, call_tool, record, lift, ret;
  cbn zeta;
  repeat match goal with
         | |- context [match ?x with Ok _ => _ | Err _ => _ end] => destruct x
         | |- context [if ?b then _ else _] => destruct b
         end;
  intro Hrun; injection Hrun as <- <-.

(** X4. Every run of a turn, failed or not, only appends to the trace, and
    the calls it makes follow the source's order: [list_tools],
    [list_prompts], [get_prompt("weather_prompt")] with no arguments, the
    model, [call_tool("weather_tool")], [get_prompt("weather_response_prompt")],
    the model; a run stops somewhere along this sequence. *)
Theorem turn_call_order E loads u h res tr :
  process_user_prompt E loads u h = (res, tr) ->
  exists new, tr = app h new /\ follows turn_order new = true.
Proof.
  intro Hrun. turn_cases Hrun;
    eexists; (split; [rewrite <- ?app_assoc; reflexivity|]); reflexivity.
Qed.

Lemma turn_call_order_witness :
  exists new,
    snd (process_user_prompt scenario_b json_loads "weather in Paris" []) = app [] new /\
    follows turn_order new = true.
Proof.
  apply (turn_call_order scenario_b json_loads "weather in Paris" []
           (fst (process_user_prompt scenario_b json_loads "weather in Paris" []))).
  destruct (process_user_prompt _ _ _ _); reflexivity.
Defined.

(** X5. A turn makes no call after a failed one: every call it records
    except the last succeeded, and when the last recorded call failed with
    [e], the turn raises [e]. *)
Theorem turn_stops_at_failed_call E loads u h res tr :
  process_user_prompt E loads u h = (res, tr) ->
  exists new, tr = app h new /\
    forallb (fun ev => match event_err ev with None => true | Some _ => false end)
            (removelast new) = true /\
    (forall e, last_err new = Some e -> res = Err e).
Proof.
  intro Hrun. turn_cases Hrun;
    eexists; (split; [rewrite <- ?app_assoc; reflexivity|]);
    (split; [reflexivity|]); cbn; intros ? He; congruence.
Qed.

Lemma turn_stops_at_failed_call_witness :
  let E := scenario_env (fenced (city_json "Paris")) "unused" false in
  exists new,
    snd (process_user_prompt E json_loads "weather in Paris" []) = app [] new /\
    forallb (fun ev => match event_err ev with None => true | Some _ => false end)
            (removelast new) = true /\
    (forall e, last_err new = Some e ->
               fst (process_user_prompt E json_loads "weather in Paris" []) = Err e).
Proof.
  intro E.
  apply (turn_stops_at_failed_call E json_loads "weather in Paris" []).
  destruct (process_user_prompt _ _ _ _); reflexivity.
Defined.

(** X6. With a truthy extraction [v] that has no ["city"] key (or is not a
    dict), the tool has already been called with [v] when [v["city"]]
    raises; the turn ends with that error, and neither the follow-up prompt
    nor a second model call is made. *)
Theorem turn_getitem_error_after_tool E loads h u sp r v wr e :
  reaches_first E h u sp r -> parse_response loads r = Ok v -> truthy v = true ->
  env_call_tool E (first_trace h sp u r) "weather_tool" v = Ok wr ->
  py_getitem v "city" = Err e ->
  process_user_prompt E loads u h =
  (Err e, app (first_trace h sp u r) [ECallTool "weather_tool" v (Ok wr)]).
Proof.
  intros Hr Hp Ht Hc Hg. unfold process_user_prompt, bind at 1.
  rewrite (process_after_first E loads h u sp r Hr), Hp.
  unfold tool_branch. rewrite Ht.
  unfold bind, call_tool, record, lift. cbn zeta. rewrite Hc, Hg. reflexivity.
Qed.

Lemma turn_getitem_error_after_tool_witness :
  let body := "{" ++ q "location" ++ ": " ++ q "Paris" ++ "}" in
  let E := scenario_env (fenced body) "unused" true in
  reaches_first E [] "weather in Paris" "You can call weather_tool." (fenced body) /\
  parse_response json_loads (fenced body) = Ok (JObj [("location", JStr "Paris")]) /\
  process_user_prompt E json_loads "weather in Paris" [] =
  (Err (PyExc "KeyError" "'city'"),
   app (first_trace [] "You can call weather_tool." "weather in Paris" (fenced body))
     [ECallTool "weather_tool" (JObj [("location", JStr "Paris")]) (Ok "Sunny, 20C")]).
Proof.
  intros body E.
  assert (Hr : reaches_first E [] "weather in Paris" "You can call weather_tool." (fenced body))
    by (repeat split; vm_compute; reflexivity).
  split; [exact Hr|]. split; [vm_compute; reflexivity|].
  apply (turn_getitem_error_after_tool E json_loads [] "weather in Paris"
           "You can call weather_tool." (fenced body) (JObj [("location", JStr "Paris")]));
    [exact Hr | vm_compute; reflexivity | reflexivity | vm_compute; reflexivity
    | reflexivity].
Defined.

(** *** The chat loop *)

(** X7. Once input from a pipe or a file is exhausted, [input()] raises
    [EOFError] at every iteration; the handler prints ["\nError: EOF when
    reading a line"] each time, and the loop never ends by itself, nor
    does it touch the session. *)
Theorem chat_loop_eof E loads fuel h :
  chat_loop_iter E loads fuel [] h =
  (repeat (chr nl ++ "Error: EOF when reading a line") fuel, OutOfFuel, h).
Proof.
  induction fuel as [|f IH]; [reflexivity|].
  cbn [chat_loop_iter]. rewrite IH. reflexivity.
Qed.

Lemma lower_char_q (c : ascii) :
  Ascii.eqb (lower_char c) "q"%char = Ascii.eqb c "q"%char || Ascii.eqb c "Q"%char.
Proof. destruct c as [[] [] [] [] [] [] [] []]; reflexivity. Qed.

Lemma lower_empty (s : string) : lower s = EmptyString -> s = EmptyString.
Proof. destruct s; [reflexivity | discriminate]. Qed.

(** X8. The quit test accepts exactly the lines that are ["q"] or ["Q"]
    once surrounding whitespace is stripped; ["quit"], which the banner
    mentions, is not among them. *)
Theorem is_quit_iff (line : string) :
  is_quit line = true <-> strip line = "q" \/ strip line = "Q".
Proof.
  unfold is_quit. rewrite String.eqb_eq.
  destruct (strip line) as [|c s]; [split; [discriminate | intros [H|H]; discriminate]|].
  cbn [lower]. split.
  - intro H. injection H as Hc Hs. apply lower_empty in Hs as ->.
    assert (Hb : Ascii.eqb (lower_char c) "q"%char = true) by (rewrite Hc; reflexivity).
    rewrite lower_char_q in Hb. apply orb_true_iff in Hb as [Hb|Hb];
      apply Ascii.eqb_eq in Hb as ->; [left|right]; reflexivity.
  - intros [H|H]; injection H as -> ->; reflexivity.
Qed.

(** X9. The first line recognised as quit ends the loop: the lines after
    it are never read or sent to the model, and the loop ends with [Quit]. *)
Theorem chat_loop_stops_at_quit E loads pre l post fuel h :
  forallb (fun x => negb (is_quit x)) pre = true -> is_quit l = true ->
  length pre < fuel ->
  chat_loop_iter E loads fuel (pre ++ l :: post) h = chat_loop_iter E loads fuel (pre ++ [l]) h /\
  exists out h', chat_loop_iter E loads fuel (pre ++ [l]) h = (out, Quit, h').
Proof.
  revert fuel h. induction pre as [|x pre IH]; intros fuel h Hpre Hl Hf;
    (destruct fuel as [|f]; [cbn in Hf; lia|]).
  - unfold is_quit in Hl. cbn [app chat_loop_iter]. rewrite Hl.
    split; [reflexivity|]. exists [], h. reflexivity.
  - cbn [forallb] in Hpre. apply andb_true_iff in Hpre as [Hx Hpre].
    apply negb_true_iff in Hx. unfold is_quit in Hx.
    cbn [app chat_loop_iter]. rewrite Hx.
    destruct (process_user_prompt E loads (strip x) h) as [r h1].
    cbn [length] in Hf.
    destruct (IH f h1 Hpre Hl ltac:(lia)) as [Heq [out [h' Hq]]].
    rewrite Heq, Hq. split; [reflexivity|]. eexists _, h'. reflexivity.
Qed.

Lemma chat_loop_stops_at_quit_witness :
  let E := scenario_env "4" "unused" true in
  forallb (fun x => negb (is_quit x)) ["What is 2+2?"] = true /\ is_quit " Q " = true /\
  chat_loop_iter E json_loads 5 ["What is 2+2?"; " Q "; "weather in Paris"] []
  = chat_loop_iter E json_loads 5 ["What is 2+2?"; " Q "] [] /\
  exists out h', chat_loop_iter E json_loads 5 ["What is 2+2?"; " Q "] [] = (out, Quit, h').
Proof.
  intro E. split; [vm_compute; reflexivity|]. split; [vm_compute; reflexivity|].
  exact (chat_loop_stops_at_quit E json_loads ["What is 2+2?"] " Q " ["weather in Paris"] 5 []
           ltac:(vm_compute; reflexivity) ltac:(vm_compute; reflexivity) ltac:(cbn; lia)).
Defined.

(** The turns run one after another on the stripped lines, each on the
    trace the previous one left, with the text each prints. *)
Fixpoint run_turns (E : env) (loads : string -> pyres json) (lines : list string) (h : trace)
  : list string * trace :=
  match lines with
  | [] => ([], h)
  | x :: xs =>
      let '(r, h1) := process_user_prompt E loads (strip x) h in
      let '(out, h') := run_turns E loads xs h1 in
      (show_result r :: out, h')
  end.

Lemma run_turns_length E loads lines h : length (fst (run_turns E loads lines h)) = length lines.
Proof.
  revert h. induction lines as [|x lines IH]; intro h; [reflexivity|].
  cbn [run_turns]. destruct (process_user_prompt E loads (strip x) h) as [r h1].
  specialize (IH h1). destruct (run_turns E loads lines h1) as [out h'].
  cbn in *. rewrite IH. reflexivity.
Qed.

(** X10. On lines none of which is a quit line, one iteration per line
    runs each stripped line as a turn, in order, on the trace the previous
    turn left, and prints for each exactly one text: ["\n" + answer] or
    ["\nError: " + str(e)] for that line's turn. *)
Theorem chat_loop_one_output_per_line E loads lines h :
  forallb (fun x => negb (is_quit x)) lines = true ->
  chat_loop_iter E loads (length lines) lines h =
  (fst (run_turns E loads lines h), OutOfFuel, snd (run_turns E loads lines h)) /\
  length (fst (run_turns E loads lines h)) = length lines.
Proof.
  intro Hl. split; [|apply run_turns_length].
  revert h Hl. induction lines as [|x lines IH]; intros h Hl; [reflexivity|].
  cbn [forallb] in Hl. apply andb_true_iff in Hl as [Hx Hl].
  apply negb_true_iff in Hx. unfold is_quit in Hx.
  cbn [length chat_loop_iter run_turns]. rewrite Hx.
  destruct (process_user_prompt E loads (strip x) h) as [r h1].
  rewrite (IH h1 Hl). destruct (run_turns E loads lines h1) as [out h']. reflexivity.
Qed.

Lemma chat_loop_one_output_per_line_witness :
  let E := scenario_env "4" "unused" true in
  forallb (fun x => negb (is_quit x)) ["What is 2+2?"; "quit"] = true /\
  chat_loop_iter E json_loads 2 ["What is 2+2?"; "quit"] [] =
  (fst (run_turns E json_loads ["What is 2+2?"; "quit"] []), OutOfFuel,
   snd (run_turns E json_loads ["What is 2+2?"; "quit"] [])) /\
  length (fst (run_turns E json_loads ["What is 2+2?"; "quit"] [])) = 2 /\
  fst (run_turns E json_loads ["What is 2+2?"; "quit"] []) = [chr nl ++ "4"; chr nl ++ "unused"].
Proof.
  intro E. split; [vm_compute; reflexivity|].
  destruct (chat_loop_one_output_per_line E json_loads ["What is 2+2?"; "quit"] []
              ltac:(vm_compute; reflexivity)) as [H1 H2].
  split; [exact H1|]. split; [exact H2|]. vm_compute. reflexivity.
Defined.
